(** * Toast and ThemedSidebar of the Streamlit frontend

    Shallow embedding of
    - [frontend/src/lib/components/elements/Toast] (the component itself is
      not part of the sources at hand, only its test: its behaviour is
      modelled from the design document: measurement, expand/collapse,
      dismiss, icon prefix);
    - [frontend/app/src/app/components/Sidebar/ThemedSidebar.tsx]
      ([createSidebarTheme], [ThemedSidebar]); [createTheme] of
      [src/lib/theme] is not part of the sources and is modelled from the
      design document;
    - [getProps] of the Toast test (frontend/src/lib/components/elements/
      Toast/Toast.test.tsx). *)

From stdpp Require Import base gmap strings list fin_maps.
From Stdlib Require Import String Ascii.

Open Scope string_scope.

(* ------------------------------------------------------------------ *)
(** ** Text layout: words and greedy line wrapping *)

Module Layout.

(** Whitespace characters: a space or a line break. *)
Definition is_space (c : ascii) : bool :=
  Ascii.eqb c " "%char || Ascii.eqb c (ascii_of_nat 10).

(** Split a string at whitespace, keeping empty pieces. *)
Fixpoint split_ws (s : string) : list string :=
  match s with
  | EmptyString => [""]
  | String c s' =>
      if is_space c then "" :: split_ws s'
      else match split_ws s' with
           | t :: ts => String c t :: ts
           | [] => [String c ""]
           end
  end.

Definition nonempty (s : string) : bool :=
  match s with EmptyString => false | _ => true end.

(** The words of a text: whitespace runs and line breaks are separators. *)
Definition words (s : string) : list string := List.filter nonempty (split_ws s).

(** Whitespace normalisation: words joined by single spaces. *)
Definition normalize (s : string) : string := String.concat " " (words s).

(** Greedy wrapping of words into lines of at most [w] characters; a word
    longer than a line occupies a line of its own.  [cur] is the current
    line in reverse, [curlen] its width. *)
Fixpoint wrap_aux (w : nat) (cur : list string) (curlen : nat)
    (ws : list string) : list (list string) :=
  match ws with
  | [] => match cur with [] => [] | _ => [rev cur] end
  | x :: ws' =>
      match cur with
      | [] => wrap_aux w [x] (String.length x) ws'
      | _ =>
          if Nat.leb (curlen + 1 + String.length x) w
          then wrap_aux w (x :: cur) (curlen + 1 + String.length x) ws'
          else rev cur :: wrap_aux w [x] (String.length x) ws'
      end
  end.

Definition wrap (w : nat) (ws : list string) : list (list string) :=
  wrap_aux w [] 0 ws.

(** The rendered lines of a text in a block [w] characters wide. *)
Definition lines (w : nat) (s : string) : list (list string) := wrap w (words s).

End Layout.

(* ------------------------------------------------------------------ *)
(** ** Toast *)

Module Toast.
Import Layout.

(** Props of the component ([ToastProps]); [type_] is the severity
    ("", "success", "warning", "error"); the theme is not modelled as it
    only drives colours. *)
Record ToastProps := mkProps { text : string; type_ : string; icon : string }.

(** Component-local state ([ToastViewState]). *)
Record ToastViewState := mkState {
  expanded : bool;
  isOverflowing : bool;
  visible : bool
}.

(** Line budget of the clamp. *)
Definition maxLines : nat := 3.

(** Modelled from the spec: Toast.tsx (missing from the sources).
    The message block: the icon and one space before the text when the icon
    is non-empty, the text alone otherwise. *)
Definition message (p : ToastProps) : string :=
  if String.eqb (icon p) "" then text p else icon p ++ " " ++ text p.

(** Modelled from the spec: measurement of the rendered block
    (height in lines for a block [w] characters wide) against the budget. *)
Definition measureOverflow (w : nat) (p : ToastProps) : bool :=
  Nat.ltb maxLines (List.length (lines w (message p))).

(** Modelled from the spec: initial mount (collapsed, measured, visible). *)
Definition mount (w : nat) (p : ToastProps) : ToastViewState :=
  mkState false (measureOverflow w p) true.

(** The text clamped to the first [maxLines] lines. *)
Definition clamped (w : nat) (p : ToastProps) : string :=
  String.concat " " (List.concat (firstn maxLines (lines w (message p)))).

(** Children of the alert element: text and buttons; a button has an
    accessible name and its text content. *)
Inductive elem :=
  | ElText (s : string)
  | ElButton (name : string) (content : string).

(** Modelled from the spec: rendering.  [None] when the component is
    unmounted; otherwise the children of the element of role "alert". *)
Definition render (w : nat) (p : ToastProps) (st : ToastViewState)
    : option (list elem) :=
  if visible st then
    let body :=
      if isOverflowing st && negb (expanded st) then clamped w p else message p in
    let toggle :=
      if isOverflowing st then
        let lbl := if expanded st then "view less" else "view more" in
        [ElButton lbl lbl]
      else [] in
    Some (ElText body :: toggle ++ [ElButton "Close" ""])
  else None.

Definition elem_text (e : elem) : string :=
  match e with ElText s => s | ElButton _ c => c end.

(** Text content of the alert element. *)
Definition textContent (es : list elem) : string :=
  String.concat "" (map elem_text es).

Definition is_button_named (n : string) (e : elem) : bool :=
  match e with ElButton m _ => String.eqb m n | _ => false end.

Definition has_button (n : string) (es : list elem) : bool :=
  existsb (is_button_named n) es.

(** Presence of a button of the given name in the accessible tree. *)
Definition button_present (n : string) (r : option (list elem)) : bool :=
  match r with Some es => has_button n es | None => false end.

(** Whether an element of role "alert" is in the accessible tree. *)
Definition alert_present (r : option (list elem)) : bool :=
  match r with Some _ => true | None => false end.

(** Presence of the expand/collapse toggle control. *)
Definition toggle_present (r : option (list elem)) : bool :=
  button_present "view more" r || button_present "view less" r.

(** The message text shown in the alert. *)
Definition body_of (r : option (list elem)) : option string :=
  match r with Some (ElText s :: _) => Some s | _ => None end.

Inductive event := ClickToggle | ClickClose.

(** Effects produced by a handler. *)
Inductive effect := OnDismiss.

(** Result of handling an event: an error, or the new state and the
    effects performed. *)
Inductive outcome :=
  | Ok (st : ToastViewState) (effs : list effect)
  | Err (msg : string).

(** Modelled from the spec: event handling.  A toggle click flips
    [expanded] and re-measures (the text is unchanged); dismiss hides the
    toast and calls [onDismiss]; events on an unmounted toast, or a toggle
    click without a toggle control, change nothing. *)
Definition step (w : nat) (p : ToastProps) (st : ToastViewState) (ev : event)
    : outcome :=
  match ev with
  | ClickToggle =>
      if visible st && isOverflowing st then
        Ok (mkState (negb (expanded st)) (measureOverflow w p) true) []
      else Ok st []
  | ClickClose =>
      if visible st then Ok (mkState (expanded st) (isOverflowing st) false) [OnDismiss]
      else Ok st []
  end.

(** Run a sequence of events, accumulating effects. *)
Fixpoint run (w : nat) (p : ToastProps) (st : ToastViewState) (evs : list event)
    : outcome :=
  match evs with
  | [] => Ok st []
  | ev :: evs' =>
      match step w p st ev with
      | Err m => Err m
      | Ok st' effs =>
          match run w p st' evs' with
          | Err m => Err m
          | Ok st'' effs' => Ok st'' (effs ++ effs')
          end
      end
  end.

(** The long message of the component test. *)
Definition longToast : ToastProps :=
  mkProps ("Random toast message that is a really really really really really "
    ++ "really really really really long message, going way past the 3 line limit")
    "" "".

End Toast.

(* ------------------------------------------------------------------ *)
(** ** Themes *)

Module Theme.

(** Colour tokens of the emotion theme ([theme.emotion.colors]); the
    tokens not named here are kept in [otherColors]. *)
Record Colors := mkColors {
  bgColor : string;
  secondaryBg : string;
  bodyText : string;
  primary : string;
  otherColors : gmap string string
}.

(** The emotion theme: colours, the other token families and the
    positional flag [inSidebar]. *)
Record EmotionTheme := mkEmotion {
  colors : Colors;
  fonts : gmap string string;
  spacing : gmap string string;
  radii : gmap string string;
  inSidebar : bool
}.

(** The Base Web theme handed to the Base Web provider. *)
Record BasewebTheme := mkBaseweb {
  bwBackground : string;
  bwSurface : string;
  bwText : string;
  bwPrimary : string
}.

(** [ThemeConfig] of [src/lib/theme]. *)
Record ThemeConfig := mkTheme {
  name : string;
  emotion : EmotionTheme;
  basewebTheme : BasewebTheme
}.

(** The theme input of [createTheme] ([Partial<CustomThemeConfig>]):
    every field is optional. *)
Record CustomThemeConfig := mkInput {
  primaryColor : option string;
  backgroundColor : option string;
  secondaryBackgroundColor : option string;
  textColor : option string
}.

(** Modelled from the spec: the Base Web theme derived from an emotion
    theme ([createBaseUiTheme] of [src/lib/theme], missing from the
    sources). *)
Definition createBaseUiTheme (e : EmotionTheme) : BasewebTheme :=
  mkBaseweb (bgColor (colors e)) (secondaryBg (colors e))
    (bodyText (colors e)) (primary (colors e)).

(** Modelled from the spec: [createTheme] of [src/lib/theme] (missing from
    the sources): a new theme named [themeName], the parent's tokens with
    the given overrides applied, every other token inherited, tagged with
    the positional flag [inSidebar]. *)
Definition createTheme (themeName : string) (themeInput : CustomThemeConfig)
    (baseThemeConfig : ThemeConfig) (inSidebar' : bool) : ThemeConfig :=
  let pe := emotion baseThemeConfig in
  let pc := colors pe in
  let c := mkColors
    (default (bgColor pc) (backgroundColor themeInput))
    (default (secondaryBg pc) (secondaryBackgroundColor themeInput))
    (default (bodyText pc) (textColor themeInput))
    (default (primary pc) (primaryColor themeInput))
    (otherColors pc) in
  let e := mkEmotion c (fonts pe) (spacing pe) (radii pe) inSidebar' in
  mkTheme themeName e (createBaseUiTheme e).

(** [createSidebarTheme] of ThemedSidebar.tsx. *)
Definition createSidebarTheme (theme : ThemeConfig) : ThemeConfig :=
  createTheme "Sidebar"
    (mkInput None
       (Some (secondaryBg (colors (emotion theme))))
       (Some (bgColor (colors (emotion theme))))
       None)
    theme
    (* inSidebar *)
    true.

(** A parent theme, used in examples. *)
Definition sampleTheme : ThemeConfig :=
  let e := mkEmotion (mkColors "#ffffff" "#f0f2f6" "#31333F" "#ff4b4b" empty)
             empty empty empty false in
  mkTheme "Light" e (createBaseUiTheme e).

(** The identity override: an empty theme input. *)
Definition emptyInput : CustomThemeConfig := mkInput None None None None.

(** Theme objects live in a heap of locations, so that the absence of
    mutation of the parent can be stated. *)
Definition loc := positive.
Definition heap := gmap loc ThemeConfig.

(** Allocation of a new object at a fresh location. *)
Definition alloc (h : heap) (v : ThemeConfig) : loc * heap :=
  let l := fresh (dom h) in (l, <[l := v]> h).

(** Modelled from the spec: [createTheme] reading its parent from the
    heap and allocating the result. *)
Definition createTheme_h (themeName : string) (themeInput : CustomThemeConfig)
    (parent : loc) (inSidebar' : bool) (h : heap) : option (loc * heap) :=
  match h !! parent with
  | Some p => Some (alloc h (createTheme themeName themeInput p inSidebar'))
  | None => None
  end.

(** [createSidebarTheme] over the heap: reads [theme.emotion.colors] of
    the parent, then calls [createTheme]. *)
Definition createSidebarTheme_h (theme : loc) (h : heap) : option (loc * heap) :=
  match h !! theme with
  | Some t =>
      createTheme_h "Sidebar"
        (mkInput None
           (Some (secondaryBg (colors (emotion t))))
           (Some (bgColor (colors (emotion t))))
           None)
        theme true h
  | None => None
  end.

End Theme.

(* ------------------------------------------------------------------ *)
(** ** ThemedSidebar *)

Module ThemedSidebar.
Import Theme.

(** JavaScript values held by props. *)
Inductive jsval :=
  | JUndefined
  | JNum (z : Z)
  | JStr (s : string)
  | JBool (b : bool)
  | JRef (r : positive).

(** A props object: keys to values. *)
Abbreviation props := (gmap string jsval).

(** The ambient [AppContext] (the fields read here). *)
Record AppContext := mkCtx {
  activeTheme : ThemeConfig;
  sidebarChevronDownshift : Z
}.

(** The element tree produced by the component. *)
Inductive vnode :=
  | VThemeProvider (theme : EmotionTheme) (baseuiTheme : BasewebTheme) (child : vnode)
  | VSidebar (ps : props).

(** [ThemedSidebar]: [{ children, ...sidebarProps }] destructures the
    props; [<Sidebar {...sidebarProps} chevronDownshift={chevronDownshift}>
    {children}</Sidebar>] builds the props of [Sidebar] (the spread, then
    the explicit attribute, then [children] set by [createElement]). *)
Definition ThemedSidebar (ctx : AppContext) (ps : props) : vnode :=
  let children := default JUndefined (ps !! "children") in
  let sidebarProps := delete "children" ps in
  let chevronDownshift := sidebarChevronDownshift ctx in
  let sidebarTheme := createSidebarTheme (activeTheme ctx) in
  VThemeProvider (emotion sidebarTheme) (basewebTheme sidebarTheme)
    (VSidebar (<["children" := children]>
                 (<["chevronDownshift" := JNum chevronDownshift]> sidebarProps))).

(** The props received by [Sidebar] in a tree. *)
Definition sidebar_props (v : vnode) : option props :=
  match v with
  | VThemeProvider _ _ (VSidebar ps) => Some ps
  | _ => None
  end.

(** The value of one prop of [Sidebar] in a tree. *)
Definition sidebar_prop (v : vnode) (k : string) : option jsval :=
  match sidebar_props v with Some ps => ps !! k | None => None end.

End ThemedSidebar.

(* ------------------------------------------------------------------ *)
(** ** The props helper of the Toast test *)

Module ToastTest.
Import ThemedSidebar.

(** [mockTheme.emotion]: one shared object, referred to by every props
    object built below. *)
Definition mockThemeEmotion : jsval := JRef 1.

(** The object literal of [getProps] before the spread. *)
Definition toastDefaults : props :=
  <["text" := JStr "This is a toast message"]>
  (<["type" := JStr ""]>
  (<["icon" := JStr "🐶"]>
  (<["theme" := mockThemeEmotion]> ∅))).

(** Object spread [{...target, ...src}]: every own key of [src] is copied
    over [target] (an explicit [undefined] included). *)
Definition spread (target src : props) : props := src ∪ target.

(** [getProps] of Toast.test.tsx; the argument defaults to [{}]. *)
Definition getProps (elementProps : option props) : props :=
  spread toastDefaults (default ∅ elementProps).

End ToastTest.

(* ------------------------------------------------------------------ *)
(** ** Properties of the layout *)

Module LayoutFacts.
Import Layout.

Lemma wrap_aux_concat w cur n ws :
  List.concat (wrap_aux w cur n ws) = (rev cur ++ ws)%list.
Proof.
  revert cur n; induction ws as [|x ws IH]; intros cur n; simpl.
  - destruct cur; simpl; [done | by rewrite app_nil_r].
  - destruct cur as [|y cur].
    + by rewrite IH.
    + destruct (Nat.leb _ w).
      * rewrite IH. simpl. by rewrite <- !app_assoc.
      * simpl. rewrite IH. simpl. by rewrite <- !app_assoc.
Qed.

Lemma wrap_aux_nonempty w cur n ws :
  Forall (fun l => l <> []) (wrap_aux w cur n ws).
Proof.
  revert cur n; induction ws as [|x ws IH]; intros cur n; simpl.
  - destruct cur as [|y cur]; [constructor|].
    constructor; [|constructor]. intros Hr.
    apply (f_equal (@List.length string)) in Hr. rewrite length_rev in Hr. simpl in Hr. lia.
  - destruct cur as [|y cur]; [apply IH|].
    destruct (Nat.leb _ w); [apply IH|].
    constructor; [|apply IH]. intros Hr.
    apply (f_equal (@List.length string)) in Hr. rewrite length_rev in Hr. simpl in Hr. lia.
Qed.

Lemma wrap_concat w ws : List.concat (wrap w ws) = ws.
Proof. apply wrap_aux_concat. Qed.

Lemma wrap_nonempty w ws : Forall (fun l => l <> []) (wrap w ws).
Proof. apply wrap_aux_nonempty. Qed.

Lemma string_cons_app (ch : ascii) (a b : string) :
  String ch a ++ b = String ch (a ++ b).
Proof. reflexivity. Qed.

Lemma string_app_assoc (a b c : string) : a ++ (b ++ c) = (a ++ b) ++ c.
Proof.
  induction a as [|ch a IH]; [done|]. rewrite !string_cons_app. by rewrite IH.
Qed.

Lemma string_app_nil_r (a : string) : a ++ "" = a.
Proof. induction a as [|ch a IH]; [done|]. rewrite string_cons_app. by rewrite IH. Qed.

Lemma concat_sep_cons (sep x : string) (l : list string) :
  l <> [] -> String.concat sep (x :: l) = x ++ sep ++ String.concat sep l.
Proof. destruct l; [done|reflexivity]. Qed.

(** Joining two non-empty word lists puts one space between them. *)
Lemma concat_sep_app (a b : list string) :
  a <> [] -> b <> [] ->
  String.concat " " (a ++ b)%list = String.concat " " a ++ " " ++ String.concat " " b.
Proof.
  intros Ha Hb. induction a as [|x a IH]; [done|].
  destruct a as [|y a].
  - simpl app. by rewrite concat_sep_cons.
  - rewrite <- app_comm_cons, concat_sep_cons by (destruct b; done).
    rewrite IH by done. rewrite (concat_sep_cons _ x) by done.
    by rewrite <- !string_app_assoc.
Qed.

(** The first [k] lines of a text that has more than [k] lines, joined,
    are a strict prefix of the normalised text. *)
Lemma firstn_lines_strict_prefix w s k :
  0 < k -> k < List.length (lines w s) ->
  exists rest, rest <> "" /\
    String.concat " " (List.concat (firstn k (lines w s))) ++ rest = normalize s.
Proof.
  intros Hk Hlt. unfold normalize.
  pose proof (wrap_nonempty w (words s)) as Hne.
  pose proof (wrap_concat w (words s)) as Hc. fold (lines w s) in Hne, Hc.
  set (ls := lines w s) in *.
  exists (" " ++ String.concat " " (List.concat (skipn k ls))). split; [done|].
  rewrite <- Hc.
  replace (List.concat ls) with (List.concat (take k ls) ++ List.concat (drop k ls))%list
    by (rewrite <- concat_app, take_drop; done).
  rewrite concat_sep_app; [done| |].
  - destruct ls as [|l0 ls']; simpl in Hlt; [lia|].
    destruct k; [lia|]. simpl. inversion Hne; subst.
    destruct l0; [done|]. done.
  - destruct (drop k ls) as [|l1 ls1] eqn:Hd.
    + apply (f_equal (@List.length (list string))) in Hd.
      rewrite length_drop in Hd. simpl in Hd. lia.
    + simpl. assert (l1 <> []) as Hl1.
      { apply (Forall_lookup_1 _ _ k _ Hne).
        rewrite <- (Nat.add_0_r k), <- lookup_drop, Hd. done. }
      destruct l1; [done|]. done.
Qed.

End LayoutFacts.

(* ------------------------------------------------------------------ *)
(** ** Properties of the Toast *)

Module ToastFacts.
Import Layout LayoutFacts Toast.

Lemma string_prefix_app (a rest : string) : String.prefix a (a ++ rest) = true.
Proof.
  induction a as [|ch a IH]; [by destruct rest|].
  rewrite string_cons_app. simpl. destruct (ascii_dec ch ch); [exact IH|done].
Qed.

Lemma textContent_cons (b : string) (es : list elem) :
  es <> [] -> textContent (ElText b :: es) = b ++ textContent es.
Proof.
  intros Hes. unfold textContent. simpl map.
  rewrite concat_sep_cons by (destruct es; done). reflexivity.
Qed.

(** The text content of a rendered alert begins with its message body. *)
Lemma render_textContent w p st es :
  render w p st = Some es ->
  exists b rest, body_of (Some es) = Some b /\ textContent es = b ++ rest.
Proof.
  unfold render. destruct (visible st); [|done]. intros [= <-].
  eexists _, _. split; [reflexivity|]. apply textContent_cons.
  destruct (isOverflowing st); done.
Qed.

(** Every reachable state keeps the measured overflow. *)
Lemma run_keeps_measure w p st evs st' effs :
  isOverflowing st = measureOverflow w p ->
  run w p st evs = Ok st' effs -> isOverflowing st' = measureOverflow w p.
Proof.
  revert st effs; induction evs as [|ev evs IH]; intros st effs Hm; simpl.
  - by intros [= <- _].
  - destruct (step w p st ev) as [s1 e1|] eqn:Hs; [|done].
    destruct (run w p s1 evs) as [s2 e2|] eqn:Hr; [|done].
    intros [= <- _]. apply (IH s1 e2); [|done].
    destruct ev; simpl in Hs;
      destruct (visible st), (isOverflowing st) eqn:Ho; simpl in Hs;
      injection Hs as <- _; simpl; congruence.
Qed.

Lemma mount_measure w p : isOverflowing (mount w p) = measureOverflow w p.
Proof. reflexivity. Qed.

(** C1: for a visible toast whose state carries the measured overflow
    (every reachable state does, [run_keeps_measure]), the toggle control
    is present iff the message overflows the 3-line budget; when it fits,
    the full message is shown, whatever [expanded], the icon or the
    severity. *)
Theorem toggle_iff_overflowing (w : nat) (p : ToastProps) (st : ToastViewState)
    (Hv : visible st = true) (Hm : isOverflowing st = measureOverflow w p) :
  toggle_present (render w p st) = measureOverflow w p /\
  (measureOverflow w p = false -> body_of (render w p st) = Some (message p)).
Proof.
  unfold render, toggle_present. rewrite Hv, Hm.
  destruct (measureOverflow w p), (expanded st); split; try done.
Qed.

Lemma toggle_iff_overflowing_witness :
  visible (mkState true false true) = true /\
  isOverflowing (mkState true false true)
    = measureOverflow 40 (mkProps "This is a toast message" "" "I") /\
  toggle_present (render 40 (mkProps "This is a toast message" "" "I")
                    (mkState true false true))
    = measureOverflow 40 (mkProps "This is a toast message" "" "I").
Proof.
  split; [reflexivity|]. split; [vm_compute; reflexivity|].
  apply (toggle_iff_overflowing 40 _ (mkState true false true));
    vm_compute; reflexivity.
Defined.

(** The collapsed body of an overflowing message is a strict prefix of
    the whitespace-normalised message. *)
Lemma clamped_strict_prefix w p :
  measureOverflow w p = true ->
  exists rest, rest <> "" /\ clamped w p ++ rest = normalize (message p).
Proof.
  unfold measureOverflow, clamped. intros H. apply Nat.ltb_lt in H.
  apply firstn_lines_strict_prefix; [unfold maxLines; lia|exact H].
Qed.

(** C2: an overflowing message mounts collapsed, with a "view more"
    toggle and a body that is a strict prefix of the full message (icon
    prefix included) up to whitespace normalisation; one toggle click
    shows the full message and the "view less" toggle. *)
Theorem overflow_mounts_collapsed (w : nat) (p : ToastProps)
    (H : measureOverflow w p = true) :
  expanded (mount w p) = false /\
  button_present "view more" (render w p (mount w p)) = true /\
  button_present "view less" (render w p (mount w p)) = false /\
  body_of (render w p (mount w p)) = Some (clamped w p) /\
  (exists rest, rest <> "" /\ clamped w p ++ rest = normalize (message p)) /\
  exists st', step w p (mount w p) ClickToggle = Ok st' [] /\
    button_present "view less" (render w p st') = true /\
    button_present "view more" (render w p st') = false /\
    body_of (render w p st') = Some (message p).
Proof.
  pose proof (clamped_strict_prefix w p H) as Hpre.
  unfold render, step, mount; cbn -[measureOverflow clamped message]; rewrite H.
  cbn -[measureOverflow clamped message].
  do 5 (split; [first [reflexivity|exact Hpre]|]).
  eexists; split; [reflexivity|]. cbn -[measureOverflow clamped message].
  repeat split; reflexivity.
Qed.

Lemma overflow_mounts_collapsed_witness :
  measureOverflow 40 longToast = true /\
  button_present "view more" (render 40 longToast (mount 40 longToast)) = true.
Proof.
  split; [vm_compute; reflexivity|].
  apply (overflow_mounts_collapsed 40 longToast); vm_compute; reflexivity.
Defined.

(** C3: on an overflowing toast, expanding then collapsing returns to the
    mounted state, hence to the same clamped rendering with "view more". *)
Theorem toggle_twice_restores (w : nat) (p : ToastProps)
    (H : measureOverflow w p = true) :
  run w p (mount w p) [ClickToggle; ClickToggle] = Ok (mount w p) [] /\
  button_present "view more" (render w p (mount w p)) = true.
Proof.
  unfold run, step, mount, render; cbn -[measureOverflow]. rewrite H.
  split; reflexivity.
Qed.

Lemma toggle_twice_restores_witness :
  measureOverflow 40 longToast = true /\
  run 40 longToast (mount 40 longToast) [ClickToggle; ClickToggle]
    = Ok (mount 40 longToast) [].
Proof.
  split; [vm_compute; reflexivity|].
  apply (toggle_twice_restores 40 longToast); vm_compute; reflexivity.
Defined.

(** C5: dismissing a visible toast removes the alert and calls
    [onDismiss] once; a second dismiss on the unmounted toast is a no-op:
    no error, no effect, no change. *)
Theorem dismiss_idempotent (w : nat) (p : ToastProps) (st : ToastViewState)
    (Hv : visible st = true) :
  exists st',
    step w p st ClickClose = Ok st' [OnDismiss] /\
    alert_present (render w p st') = false /\
    step w p st' ClickClose = Ok st' [] /\
    run w p st [ClickClose; ClickClose] = Ok st' [OnDismiss].
Proof.
  exists (mkState (expanded st) (isOverflowing st) false).
  unfold step, run. cbn. rewrite Hv. cbn.
  split; [reflexivity|]. split; [reflexivity|]. split; reflexivity.
Qed.

Lemma dismiss_idempotent_witness :
  visible (mount 40 longToast) = true /\
  exists st', step 40 longToast (mount 40 longToast) ClickClose = Ok st' [OnDismiss].
Proof.
  split; [reflexivity|].
  destruct (dismiss_idempotent 40 longToast (mount 40 longToast) eq_refl)
    as [st' [Hs _]].
  exists st'. exact Hs.
Defined.

(** C6, counterexample: an overflowing toast with icon "I", collapsed,
    shows "I aa bb cc": its text content does not begin with the icon, a
    space and the whole text "aa bb cc dd". *)
Lemma icon_prefix_counterexample :
  exists es,
    render 4 (mkProps "aa bb cc dd" "" "I") (mount 4 (mkProps "aa bb cc dd" "" "I"))
      = Some es /\
    ~ (exists rest, textContent es = "I" ++ " " ++ "aa bb cc dd" ++ rest).
Proof.
  eexists. split; [vm_compute; reflexivity|].
  intros [rest Hr].
  pose proof (string_prefix_app ("I" ++ " " ++ "aa bb cc dd") rest) as Hp.
  rewrite <- !string_app_assoc, <- Hr in Hp. vm_compute in Hp. discriminate.
Qed.

(** C6, as amended: when the full message is shown (the text fits, or the
    toast is expanded), the text content begins with the icon, one space
    and the text if the icon is non-empty, and with the text itself if it
    is empty; a collapsed overflowing toast begins with the clamped
    message, the first three lines of that same icon-prefixed message. *)
Theorem icon_prefix_displayed (w : nat) (p : ToastProps) (st : ToastViewState)
    (Hv : visible st = true) :
  exists es, render w p st = Some es /\
    ((isOverflowing st = false \/ expanded st = true) ->
       body_of (Some es) = Some (message p) /\
       (icon p <> "" -> exists rest, textContent es = icon p ++ " " ++ text p ++ rest) /\
       (icon p = "" -> exists rest, textContent es = text p ++ rest)) /\
    (isOverflowing st = true -> expanded st = false ->
       body_of (Some es) = Some (clamped w p) /\
       exists rest, textContent es = clamped w p ++ rest).
Proof.
  destruct (render w p st) as [es|] eqn:Hr;
    [|unfold render in Hr; rewrite Hv in Hr; discriminate].
  exists es. split; [reflexivity|].
  destruct (render_textContent w p st es Hr) as (b & rest & Hb & Ht).
  unfold render in Hr. rewrite Hv in Hr. injection Hr as <-. simpl in Hb.
  injection Hb as <-. split.
  - intros Hfull.
    assert (isOverflowing st && negb (expanded st) = false) as Hc
      by (destruct Hfull as [-> | ->]; [done|by destruct (isOverflowing st)]).
    rewrite Hc in Ht |- *. split; [reflexivity|].
    unfold message in Ht |- *. split.
    + intros Hi. apply String.eqb_neq in Hi. rewrite Hi in Ht |- *.
      exists rest. rewrite Ht. by rewrite <- !string_app_assoc.
    + intros Hi. rewrite Hi in Ht |- *. simpl in Ht |- *. by exists rest.
  - intros Ho He. rewrite Ho, He in Ht |- *. split; [reflexivity|].
    by exists rest.
Qed.

Lemma icon_prefix_displayed_witness :
  visible (mount 40 (mkProps "This is a toast message" "" "I")) = true /\
  exists es, render 40 (mkProps "This is a toast message" "" "I")
               (mount 40 (mkProps "This is a toast message" "" "I")) = Some es.
Proof.
  split; [reflexivity|].
  destruct (icon_prefix_displayed 40 (mkProps "This is a toast message" "" "I")
              (mount 40 (mkProps "This is a toast message" "" "I")) eq_refl)
    as [es [He _]].
  exists es. exact He.
Defined.

End ToastFacts.

(* ------------------------------------------------------------------ *)
(** ** Properties of the theme derivation *)

Module ThemeFacts.
Import Theme.

Lemma alloc_fresh h v l' h' :
  alloc h v = (l', h') ->
  (l' ∉ dom h) /\ h' !! l' = Some v /\ forall l, l <> l' -> h' !! l = h !! l.
Proof.
  unfold alloc. intros [= <- <-]. split; [apply is_fresh|].
  split; [apply lookup_insert_eq|]. intros l Hl. by apply lookup_insert_ne.
Qed.

Lemma createSidebarTheme_h_spec h l p :
  h !! l = Some p ->
  createSidebarTheme_h l h = Some (alloc h (createSidebarTheme p)).
Proof. unfold createSidebarTheme_h, createTheme_h. intros ->. reflexivity. Qed.

(** C4: [createSidebarTheme] allocates a new theme whose background is the
    parent's secondary background and whose secondary background is the
    parent's background, every other token being the parent's; the parent
    object, and every other object of the heap, is left as it was. *)
Theorem sidebar_theme_swaps (h : heap) (l : loc) (p : ThemeConfig)
    (Hp : h !! l = Some p) :
  exists l' h' t,
    createSidebarTheme_h l h = Some (l', h') /\
    h' !! l' = Some t /\ t = createSidebarTheme p /\
    (l' ∉ dom h) /\ h' !! l = Some p /\
    (forall l'', l'' <> l' -> h' !! l'' = h !! l'') /\
    bgColor (colors (emotion t)) = secondaryBg (colors (emotion p)) /\
    secondaryBg (colors (emotion t)) = bgColor (colors (emotion p)) /\
    bodyText (colors (emotion t)) = bodyText (colors (emotion p)) /\
    primary (colors (emotion t)) = primary (colors (emotion p)) /\
    otherColors (colors (emotion t)) = otherColors (colors (emotion p)) /\
    fonts (emotion t) = fonts (emotion p) /\
    spacing (emotion t) = spacing (emotion p) /\
    radii (emotion t) = radii (emotion p).
Proof.
  rewrite (createSidebarTheme_h_spec h l p Hp).
  destruct (alloc h (createSidebarTheme p)) as [l' h'] eqn:Ha.
  destruct (alloc_fresh _ _ _ _ Ha) as (Hfresh & Hnew & Hold).
  exists l', h', (createSidebarTheme p).
  split; [done|]. split; [done|]. split; [done|]. split; [done|].
  split.
  { rewrite Hold; [done|]. intros ->. apply Hfresh. by eapply elem_of_dom_2. }
  split; [done|].
  repeat split.
Qed.

Lemma sidebar_theme_swaps_witness :
  ({[1%positive := sampleTheme]} : heap) !! 1%positive = Some sampleTheme /\
  exists l' h', createSidebarTheme_h 1%positive {[1%positive := sampleTheme]}
                  = Some (l', h').
Proof.
  split; [reflexivity|].
  destruct (sidebar_theme_swaps {[1%positive := sampleTheme]} 1%positive sampleTheme
              ltac:(apply lookup_singleton_eq)) as (l' & h' & _ & Hc & _).
  exists l', h'. exact Hc.
Defined.

(** C7: deriving the sidebar theme twice gives back the parent's colour
    tokens (background and secondary background included), and so does a
    further derivation with the identity override. *)
Theorem sidebar_theme_self_inverse (p : ThemeConfig) (n : string) (b : bool) :
  colors (emotion (createSidebarTheme (createSidebarTheme p))) = colors (emotion p) /\
  colors (emotion (createTheme n emptyInput
                     (createSidebarTheme (createSidebarTheme p)) b))
    = colors (emotion p).
Proof. destruct p as [? [[] ? ? ? ?] ?]. split; reflexivity. Qed.

(** C8: on equal parents, two invocations of [createSidebarTheme] (on any
    heaps) produce equal themes, and each leaves every object of its heap
    other than the new one unchanged. *)
Theorem sidebar_theme_deterministic (h1 h2 : heap) (l1 l2 : loc) (p : ThemeConfig)
    (H1 : h1 !! l1 = Some p) (H2 : h2 !! l2 = Some p) :
  exists l1' h1' l2' h2',
    createSidebarTheme_h l1 h1 = Some (l1', h1') /\
    createSidebarTheme_h l2 h2 = Some (l2', h2') /\
    h1' !! l1' = h2' !! l2' /\
    (l1' ∉ dom h1) /\ (l2' ∉ dom h2) /\
    (forall l, l <> l1' -> h1' !! l = h1 !! l) /\
    (forall l, l <> l2' -> h2' !! l = h2 !! l).
Proof.
  rewrite (createSidebarTheme_h_spec h1 l1 p H1), (createSidebarTheme_h_spec h2 l2 p H2).
  destruct (alloc h1 (createSidebarTheme p)) as [l1' h1'] eqn:Ha1.
  destruct (alloc h2 (createSidebarTheme p)) as [l2' h2'] eqn:Ha2.
  destruct (alloc_fresh _ _ _ _ Ha1) as (F1 & E1 & O1).
  destruct (alloc_fresh _ _ _ _ Ha2) as (F2 & E2 & O2).
  exists l1', h1', l2', h2'. rewrite E1, E2. repeat split; assumption.
Qed.

Lemma sidebar_theme_deterministic_witness :
  ({[1%positive := sampleTheme]} : heap) !! 1%positive = Some sampleTheme /\
  ({[7%positive := sampleTheme]} : heap) !! 7%positive = Some sampleTheme /\
  exists l1' h1' l2' h2',
    createSidebarTheme_h 1%positive {[1%positive := sampleTheme]} = Some (l1', h1') /\
    createSidebarTheme_h 7%positive {[7%positive := sampleTheme]} = Some (l2', h2') /\
    h1' !! l1' = h2' !! l2'.
Proof.
  split; [reflexivity|]. split; [reflexivity|].
  destruct (sidebar_theme_deterministic {[1%positive := sampleTheme]}
              {[7%positive := sampleTheme]} 1%positive 7%positive sampleTheme
              ltac:(apply lookup_singleton_eq) ltac:(apply lookup_singleton_eq)) as (l1' & h1' & l2' & h2' & A & B & C & _).
  exists l1', h1', l2', h2'. split; [exact A|]. split; [exact B|exact C].
Defined.

(** C9: the sidebar theme is named "Sidebar" and has [inSidebar] set,
    whatever the parent. *)
Theorem sidebar_theme_name_flag (p : ThemeConfig) :
  name (createSidebarTheme p) = "Sidebar" /\
  inSidebar (emotion (createSidebarTheme p)) = true.
Proof. split; reflexivity. Qed.

End ThemeFacts.

(* ------------------------------------------------------------------ *)
(** ** Properties of ThemedSidebar *)

Module ThemedSidebarFacts.
Import Theme ThemedSidebar.

(** C10: [Sidebar] receives [sidebarChevronDownshift] of the context as
    [chevronDownshift], the [children] of [ThemedSidebar], and every other
    prop of [ThemedSidebar] unchanged; it is wrapped in a provider of the
    sidebar theme. *)
Theorem themed_sidebar_forwards (ctx : AppContext) (ps : props) :
  exists sps,
    ThemedSidebar ctx ps
      = VThemeProvider (emotion (createSidebarTheme (activeTheme ctx)))
          (basewebTheme (createSidebarTheme (activeTheme ctx))) (VSidebar sps) /\
    sps !! "chevronDownshift" = Some (JNum (sidebarChevronDownshift ctx)) /\
    sps !! "children" = Some (default JUndefined (ps !! "children")) /\
    forall k, k <> "chevronDownshift" -> k <> "children" -> sps !! k = ps !! k.
Proof.
  exists (<["children" := default JUndefined (ps !! "children")]>
            (<["chevronDownshift" := JNum (sidebarChevronDownshift ctx)]>
               (delete "children" ps))).
  split; [reflexivity|].
  split; [by rewrite lookup_insert_ne, lookup_insert_eq|].
  split; [by rewrite lookup_insert_eq|].
  intros k Hc Hch.
  rewrite lookup_insert_ne by congruence.
  rewrite lookup_insert_ne by congruence.
  by rewrite lookup_delete_ne by congruence.
Qed.

(** The props of [Sidebar] have exactly the keys of the props of
    [ThemedSidebar], plus [chevronDownshift] and [children]. *)
Theorem themed_sidebar_prop_keys (ctx : AppContext) (ps : props) :
  exists sps, sidebar_props (ThemedSidebar ctx ps) = Some sps /\
    dom sps = dom ps ∪ {["chevronDownshift"; "children"]}.
Proof.
  eexists. split; [reflexivity|].
  rewrite !dom_insert_L, dom_delete_L.
  apply set_eq. intros k. rewrite !elem_of_union, elem_of_difference, !elem_of_singleton.
  destruct (decide (k = "children")); set_solver.
Qed.

(** The props of [Sidebar] depend on the context only through
    [sidebarChevronDownshift]: a change of the active theme changes the
    provider only. *)
Theorem themed_sidebar_props_ignore_theme (ctx1 ctx2 : AppContext) (ps : props)
    (H : sidebarChevronDownshift ctx1 = sidebarChevronDownshift ctx2) :
  sidebar_props (ThemedSidebar ctx1 ps) = sidebar_props (ThemedSidebar ctx2 ps).
Proof. unfold ThemedSidebar. simpl. by rewrite H. Qed.

Lemma themed_sidebar_props_ignore_theme_witness :
  sidebarChevronDownshift (mkCtx sampleTheme 4) = sidebarChevronDownshift (mkCtx (createSidebarTheme sampleTheme) 4) /\
  sidebar_props (ThemedSidebar (mkCtx sampleTheme 4) ∅)
    = sidebar_props (ThemedSidebar (mkCtx (createSidebarTheme sampleTheme) 4) ∅).
Proof.
  split; [reflexivity|].
  apply (themed_sidebar_props_ignore_theme _ _ ∅). reflexivity.
Defined.

(** A [chevronDownshift] passed by the caller (excluded by the prop type,
    possible at run time) is ignored: the context's value wins. *)
Theorem themed_sidebar_caller_downshift_ignored (ctx : AppContext) (ps : props)
    (v : jsval) :
  sidebar_prop (ThemedSidebar ctx (<["chevronDownshift" := v]> ps)) "chevronDownshift"
    = Some (JNum (sidebarChevronDownshift ctx)) /\
  ThemedSidebar ctx (<["chevronDownshift" := v]> ps) = ThemedSidebar ctx ps.
Proof.
  split.
  - unfold sidebar_prop, ThemedSidebar. simpl.
    by rewrite lookup_insert_ne, lookup_insert_eq.
  - unfold ThemedSidebar.
    rewrite lookup_insert_ne by done.
    do 2 f_equal. rewrite delete_insert_ne by done.
    by rewrite insert_insert_eq.
Qed.

(** Missing [children] and [children] explicitly [undefined] render the
    same tree: [Sidebar] receives [children: undefined] in both cases. *)
Theorem themed_sidebar_children_undefined (ctx : AppContext) (ps : props) :
  sidebar_prop (ThemedSidebar ctx (<["children" := JUndefined]> ps)) "children"
    = Some JUndefined /\
  sidebar_prop (ThemedSidebar ctx (delete "children" ps)) "children"
    = Some JUndefined /\
  ThemedSidebar ctx (<["children" := JUndefined]> ps)
    = ThemedSidebar ctx (delete "children" ps).
Proof.
  split; [unfold sidebar_prop; simpl; by rewrite lookup_insert_eq, lookup_insert_eq|].
  split; [unfold sidebar_prop; simpl; by rewrite lookup_insert_eq, lookup_delete_eq|].
  unfold ThemedSidebar.
  rewrite lookup_insert_eq, lookup_delete_eq. simpl.
  by rewrite delete_insert_eq, delete_delete_eq.
Qed.

End ThemedSidebarFacts.

(* ------------------------------------------------------------------ *)
(** ** Properties of the props helper of the Toast test *)

Module ToastTestFacts.
Import ThemedSidebar ToastTest.

(** The props always have the keys text, type, icon and theme, and
    otherwise exactly the keys given. *)
Theorem getProps_keys (elementProps : option props) :
  dom (getProps elementProps)
    = dom (default ∅ elementProps) ∪ {["text"; "type"; "icon"; "theme"]}.
Proof.
  unfold getProps, spread. rewrite dom_union_L.
  unfold toastDefaults. rewrite !dom_insert_L, dom_empty_L. set_solver.
Qed.

(** Feeding the result of [getProps] back to it changes nothing. *)
Theorem getProps_idempotent (elementProps : option props) :
  getProps (Some (getProps elementProps)) = getProps elementProps.
Proof.
  unfold getProps, spread. simpl.
  by rewrite <- (assoc_L (∪)), (idemp_L (∪)).
Qed.

(** Two successive overrides compose: overriding with [e1] and then
    with [e2] is overriding once with [e1] updated by [e2]. *)
Theorem getProps_override_compose (e1 e2 : props) :
  spread (getProps (Some e1)) e2 = getProps (Some (spread e1 e2)).
Proof. unfold getProps, spread. simpl. by rewrite (assoc_L (∪)). Qed.

End ToastTestFacts.
